(** * moltbook-cli: the configuration store and the API client

    A shallow embedding of [src/moltbook_cli/config.py], of
    [src/moltbook_cli/api.py] and of the commands of
    [src/moltbook_cli/cli.py] that report in lines of text, with the
    properties of the specification that concern them and further
    properties read off the code.

    Python values are embedded as an inductive type, dictionaries as
    finite maps, exceptions as an explicit outcome, and the two pieces of
    mutable world the program touches (the per-user configuration file, and
    the wire on which HTTP requests leave) as threaded state. *)

From stdpp Require Import base option strings gmap fin_maps.
From Stdlib Require Import ZArith Ascii.

Open Scope Z_scope.
Open Scope string_scope.

(** ** Python values *)

(** The values that travel through the program: what [json.load] and
    [response.json()] can produce, and what the client puts into request
    bodies and query parameters.  A [dict] with string keys is a finite
    map; equality of two [VDict] is equality of their mappings, as [==] on
    Python dictionaries is.  JSON numbers with a fraction do not occur in
    anything the program builds and are left out. *)
#[warnings="-register-all"]
Inductive value : Type :=
  | VNone
  | VBool (b : bool)
  | VInt (n : Z)
  | VStr (s : string)
  | VList (l : list value)
  | VDict (d : gmap string value).

Abbreviation dict := (gmap string value).

(** Python's built-in exceptions the modelled code can raise, and the
    transport fault of the HTTP library. *)
Inductive exn : Type :=
  | JSONDecodeError
  | TypeError
  | AttributeError
  | FileNotFoundError
  | TransportError.

Inductive outcome (A : Type) : Type :=
  | Return (a : A)
  | Raise (e : exn).
Arguments Return {A} a.
Arguments Raise {A} e.

(** ** Truthiness

    [if x:] tests [bool(x)]: [None], [False], the empty string and the
    empty dictionary are false. *)
Class Truthy (A : Type) := truthy : A → bool.

#[global] Instance bool_truthy : Truthy bool := λ b, b.
#[global] Instance str_truthy : Truthy string :=
  λ s, match s with EmptyString => false | String _ _ => true end.
#[global] Instance optional_truthy {A} `{Truthy A} : Truthy (option A) :=
  λ o, match o with None => false | Some a => truthy a end.
#[global] Instance dict_truthy : Truthy dict :=
  λ d, negb (Nat.eqb (size d) 0).

(** ** A state-and-exception monad

    A computation runs on a state [S]; it returns or raises, and hands on
    the state as it left it (a raise does not undo the effects before it). *)
Definition M (S A : Type) : Type := S → outcome A * S.

#[global] Instance M_ret {S} : MRet (M S) := λ A a s, (Return a, s).
#[global] Instance M_bind {S} : MBind (M S) := λ A B k m s,
  match m s with
  | (Return a, s') => k a s'
  | (Raise e, s') => (Raise e, s')
  end.

Definition raise {S A} (e : exn) : M S A := λ s, (Raise e, s).
Definition lift {S A} (o : outcome A) : M S A := λ s, (o, s).
Definition gets {S A} (f : S → A) : M S A := λ s, (Return (f s), s).
Definition modify {S} (f : S → S) : M S unit := λ s, (Return tt, f s).

(** What the [json] module makes of a text: either the text is a JSON
    document, and then it is identified with the value it parses to, or it
    is not.  [json.dump] writes the document of a value, and [json.load]
    reads it back or raises.  Two documents that list the same entries of
    an object in different orders are the same document here: the order in
    which [json.dump] writes the keys is not kept. *)
Inductive document : Type :=
  | Json (v : value)
  | Malformed (raw : string).

Definition json_dump (v : value) : document := Json v.

Definition json_load (d : document) : outcome value :=
  match d with
  | Json v => Return v
  | Malformed _ => Raise JSONDecodeError
  end.

(** An [Optional[str]] argument as the value it is. *)
Definition optional_str (o : option string) : value := from_option VStr VNone o.

(** [d.get(key)] and [d[key] = v] on a value that is expected to be a
    dictionary. *)
Definition py_get (d : value) (key : string) : outcome value :=
  match d with
  | VDict m => Return (default VNone (m !! key))
  | _ => Raise AttributeError
  end.

Definition py_setitem (d : value) (key : string) (v : value) : outcome value :=
  match d with
  | VDict m => Return (VDict (<[key := v]> m))
  | _ => Raise TypeError
  end.

(** ** config.py *)
Module Config.

(** The part of the machine [config.py] reads and writes: the process
    environment, and under the home directory the directory [~/.moltbook]
    and the file [config.json] in it. *)
Record world : Type := World {
  environ : gmap string string;
  config_dir : bool;
  config_file : option document
}.

Definition get_config_dir : M world unit :=
  modify (λ w, World (environ w) true (config_file w)).

(** [open(CONFIG_FILE, "w")] followed by [json.dump]: the file is replaced
    as a whole. *)
Definition write_config_file (d : document) : M world unit :=
  λ w, if config_dir w
       then (Return tt, World (environ w) true (Some d))
       else (Raise FileNotFoundError, w).

Definition load_config : M world value :=
  f ← gets config_file;
  match f with
  | Some d => lift (json_load d)
  | None => mret (VDict ∅)
  end.

Definition save_config (config : value) : M world unit :=
  get_config_dir;;
  write_config_file (json_dump config).

Definition get_api_key : M world value :=
  env_key ← gets (λ w, environ w !! "MOLTBOOK_API_KEY");
  if truthy env_key
  then mret (optional_str env_key)
  else
    config ← load_config;
    lift (py_get config "api_key").

Definition set_api_key (api_key : string) : M world unit :=
  config ← load_config;
  config ← lift (py_setitem config "api_key" (VStr api_key));
  save_config config.

Definition get_config_value (key : string) : M world value :=
  config ← load_config;
  lift (py_get config key).

Definition set_config_value (key value : string) : M world unit :=
  config ← load_config;
  config ← lift (py_setitem config key (VStr value));
  save_config config.

(** Worlds to try the store on: a stored key only, a stored key under an
    environment variable, the variable set to the empty string, and
    neither. *)
Definition stored_key : dict := {[ "api_key" := VStr "FILEKEY" ]}.

Definition file_only : world :=
  World ∅ true (Some (Json (VDict stored_key))).
Definition env_and_file : world :=
  World {[ "MOLTBOOK_API_KEY" := "ENVKEY" ]} true (Some (Json (VDict stored_key))).
Definition empty_env_and_file : world :=
  World {[ "MOLTBOOK_API_KEY" := "" ]} true (Some (Json (VDict stored_key))).
Definition fresh : world := World ∅ false None.

End Config.

(** ** api.py *)
Module Api.

Definition API_BASE : string := "https://www.moltbook.com/api/v1".

(** *** The HTTP library

    The part of [httpx] the client relies on.  A request as it leaves the
    process, a response as it comes back, and a transport that answers a
    request with a response or fails (connection refused, time-out). *)
Record http_request : Type := HttpRequest {
  req_method : string;
  req_url : string;
  req_params : dict;
  req_headers : gmap string string;
  req_json : option dict;
  req_timeout : Z
}.

Record http_response : Type := HttpResponse {
  status_code : Z;
  content : document
}.

Inductive answer : Type :=
  | Responded (r : http_response)
  | Failed.

Definition transport : Type := http_request → answer.

(** [httpx.Client(base_url=..., headers=..., timeout=...)]. *)
Record Client : Type := MkClient {
  base_url : string;
  headers : gmap string string;
  timeout : Z;
  mounted : transport
}.

(** The keyword arguments of [Client.request] that shape the request.
    The methods of [MoltbookClient] pass [params] and [json] only, but
    [**kwargs] forwards whatever it is given, so the per-call overrides of
    headers and timeout are part of the interface. *)
Record kwargs : Type := Kwargs {
  kw_params : option dict;
  kw_json : option dict;
  kw_headers : option (gmap string string);
  kw_timeout : option Z
}.

Definition no_kwargs : kwargs := Kwargs None None None None.
Definition with_params (p : dict) : kwargs := Kwargs (Some p) None None None.
Definition with_json (j : option dict) : kwargs := Kwargs None j None None.

(** [Client.request]: a relative URL is appended to the base URL, headers
    given with the call are laid over the client's, a timeout given with
    the call replaces the client's; the request goes out on the wire, and
    the transport's answer is the result.  The wire keeps every request
    sent, oldest first.

    [req_url] is the URL as the client asks for it; what httpx makes of
    its path is [requested_path] below.  [req_headers] holds the headers
    the program sets; httpx adds its own ([Host], [Accept],
    [Accept-Encoding], [Connection], [User-Agent]), the same for every
    credential.  httpx refuses a URL that holds an ASCII control character
    with [InvalidURL] before anything is sent; that check is not part of
    the model, which sends every request it builds. *)
Definition build_request (c : Client) (method url : string) (kw : kwargs)
    : http_request :=
  {| req_method := method;
     req_url := base_url c +:+ url;
     req_params := default ∅ (kw_params kw);
     req_headers := default ∅ (kw_headers kw) ∪ headers c;
     req_json := kw_json kw;
     req_timeout := default (timeout c) (kw_timeout kw) |}.

Definition wire : Type := list http_request.

Definition client_request (c : Client) (method url : string) (kw : kwargs)
    : M wire http_response :=
  let req := build_request c method url kw in
  modify (λ sent, (sent ++ [req])%list);;
  match mounted c req with
  | Responded r => mret r
  | Failed => raise TransportError
  end.

(** [response.json()]; the status code plays no part in it. *)
Definition response_json (r : http_response) : outcome value :=
  json_load (content r).

(** *** class MoltbookClient *)
Record MoltbookClient : Type := MkMoltbookClient {
  api_key : string;
  client : Client
}.

(** The transport is the network the process runs on; a test mounts a
    mock in its place.  httpx encodes header values as ASCII and refuses a
    credential with other characters when the client is built; the model
    builds the client for every string. *)
Definition __init__ (net : transport) (api_key : string) : MoltbookClient :=
  {| api_key := api_key;
     client := {| base_url := API_BASE;
                  headers := {[ "Authorization" := "Bearer " +:+ api_key ]};
                  timeout := 30;
                  mounted := net |} |}.

Section methods.
Variable self : MoltbookClient.

Definition _request (method endpoint : string) (kw : kwargs) : M wire value :=
  response ← client_request (client self) method endpoint kw;
  lift (response_json response).

Definition get (endpoint : string) (kw : kwargs) : M wire value :=
  _request "GET" endpoint kw.

Definition post (endpoint : string) (kw : kwargs) : M wire value :=
  _request "POST" endpoint kw.

Definition status : M wire value :=
  get "/agents/status" no_kwargs.

Definition feed (sort : string) (limit : Z) : M wire value :=
  get "/feed" (with_params {[ "sort" := VStr sort; "limit" := VInt limit ]}).

Definition posts (sort : string) (limit : Z) (submolt : option string)
    : M wire value :=
  let params : dict := {[ "sort" := VStr sort; "limit" := VInt limit ]} in
  let params :=
    if truthy submolt
    then <[ "submolt" := optional_str submolt ]> params
    else params in
  get "/posts" (with_params params).

Definition create_post (submolt content : string) (title url : option string)
    : M wire value :=
  let data : dict := {[ "submolt" := VStr submolt; "content" := VStr content ]} in
  let data :=
    if truthy title
    then <[ "title" := optional_str title ]> data
    else data in
  let data :=
    if truthy url
    then <[ "url" := optional_str url ]> data
    else data in
  post "/posts" (with_json (Some data)).

Definition get_post (post_id : string) : M wire value :=
  get ("/posts/" +:+ post_id) no_kwargs.

Definition create_comment (post_id content : string) (parent_id : option string)
    : M wire value :=
  let data : dict := {[ "content" := VStr content ]} in
  let data :=
    if truthy parent_id
    then <[ "parent_id" := optional_str parent_id ]> data
    else data in
  post ("/posts/" +:+ post_id +:+ "/comments") (with_json (Some data)).

Definition upvote (post_id : string) : M wire value :=
  post ("/posts/" +:+ post_id +:+ "/upvote") no_kwargs.

Definition downvote (post_id : string) : M wire value :=
  post ("/posts/" +:+ post_id +:+ "/downvote") no_kwargs.

Definition dm_check : M wire value :=
  get "/agents/dm/check" no_kwargs.

Definition dm_conversations : M wire value :=
  get "/agents/dm/conversations" no_kwargs.

Definition dm_read (conversation_id : string) : M wire value :=
  get ("/agents/dm/conversations/" +:+ conversation_id) no_kwargs.

Definition dm_send (conversation_id message : string) (needs_human_input : bool)
    : M wire value :=
  let data : dict := {[ "message" := VStr message ]} in
  let data :=
    if truthy needs_human_input
    then <[ "needs_human_input" := VBool true ]> data
    else data in
  post ("/agents/dm/conversations/" +:+ conversation_id +:+ "/send")
       (with_json (Some data)).

Definition dm_request (to message : string) (by_owner : bool) : M wire value :=
  let data : dict := {[ "message" := VStr message ]} in
  let data :=
    if truthy by_owner
    then <[ "to_owner" := VStr to ]> data
    else <[ "to" := VStr to ]> data in
  post "/agents/dm/request" (with_json (Some data)).

Definition dm_requests : M wire value :=
  get "/agents/dm/requests" no_kwargs.

Definition dm_approve (conversation_id : string) : M wire value :=
  post ("/agents/dm/requests/" +:+ conversation_id +:+ "/approve") no_kwargs.

Definition dm_reject (conversation_id : string) (block : bool) : M wire value :=
  let data : dict := ∅ in
  let data :=
    if truthy block
    then <[ "block" := VBool true ]> data
    else data in
  post ("/agents/dm/requests/" +:+ conversation_id +:+ "/reject")
       (with_json (if truthy data then Some data else None)).

Definition submolts : M wire value :=
  get "/submolts" no_kwargs.

Definition search (query : string) : M wire value :=
  get "/search" (with_params {[ "q" := VStr query ]}).
End methods.

(** [close], [__enter__] and [__exit__] release the connection of the
    underlying client; they send nothing and are not part of the model. *)

(** The operations the client exposes, with their arguments, and the
    method each one names. *)
Inductive operation : Type :=
  | Status
  | Feed (sort : string) (limit : Z)
  | Posts (sort : string) (limit : Z) (submolt : option string)
  | CreatePost (submolt content : string) (title url : option string)
  | GetPost (post_id : string)
  | CreateComment (post_id content : string) (parent_id : option string)
  | Upvote (post_id : string)
  | Downvote (post_id : string)
  | DmCheck
  | DmConversations
  | DmRead (conversation_id : string)
  | DmSend (conversation_id message : string) (needs_human_input : bool)
  | DmRequest (to message : string) (by_owner : bool)
  | DmRequests
  | DmApprove (conversation_id : string)
  | DmReject (conversation_id : string) (block : bool)
  | Submolts
  | Search (query : string).

Definition call (self : MoltbookClient) (op : operation) : M wire value :=
  match op with
  | Status => status self
  | Feed s l => feed self s l
  | Posts s l sm => posts self s l sm
  | CreatePost sm c t u => create_post self sm c t u
  | GetPost p => get_post self p
  | CreateComment p c pa => create_comment self p c pa
  | Upvote p => upvote self p
  | Downvote p => downvote self p
  | DmCheck => dm_check self
  | DmConversations => dm_conversations self
  | DmRead c => dm_read self c
  | DmSend c m h => dm_send self c m h
  | DmRequest t m o => dm_request self t m o
  | DmRequests => dm_requests self
  | DmApprove c => dm_approve self c
  | DmReject c b => dm_reject self c b
  | Submolts => submolts self
  | Search q => search self q
  end.

(** A computation issues [req] when, on any wire, running it puts exactly
    that one request on the wire after those already there. *)
Definition issues {A} (m : M wire A) (req : http_request) : Prop :=
  ∀ sent : wire, snd (m sent) = (sent ++ [req])%list.

(** A mock transport that answers every request with the same status code
    and body, and the two bodies of the specification's scenarios. *)
Definition mock_transport (code : Z) (body : document) : transport :=
  λ _, Responded (HttpResponse code body).

Definition invalid_token : value :=
  VDict {[ "success" := VBool false;
           "error" := VStr "invalid_token";
           "hint" := VStr "check key" ]}.

Definition one_post : value :=
  VDict {[ "posts" := VList [ VDict {[ "id" := VStr "abc" ]} ] ]}.

Definition demo_client : MoltbookClient :=
  __init__ (mock_transport 200 (Json one_post)) "KEY".

(** How an optional string argument shows in an entry of the request body
    or query: nothing is sent for [None] and for the empty string, and a
    non-empty string is sent as it is. *)
Definition omitted_or_sent (input : option string) (entry : option value) : Prop :=
  (input = None ∨ input = Some "" → entry = None) ∧
  (∀ s, input = Some s → s ≠ "" → entry = Some (VStr s)).

(** The values that would stand for "nothing" in a query or a body. *)
Definition placeholder (v : value) : bool :=
  match v with
  | VNone | VBool false => true
  | _ => false
  end.

(** *** What httpx makes of the URL

    [req_url] is the URL as the client asks for it: the base URL followed
    by the endpoint.  Before the request leaves, httpx cuts the query and
    the fragment off the path and drops the dot segments of the path
    ([normalize_path] in [httpx/_urlparse.py]); percent-encoding, which
    comes last, moves nothing and is left out. *)














(** The requests a computation adds to the wire it is run on. *)
Definition issued {A} (m : M wire A) (sent : wire) : list http_request :=
  drop (length sent) (snd (m sent)).

End Api.

(** ** cli.py

    The commands that do not draw tables: the helpers [get_client],
    [output_json] and [handle_error], the commands that call one operation
    and report it in one line, [config set] and [heartbeat].  A command is
    taken from the point where [click] has parsed its arguments. *)
Module Cli.
Import Config Api.

(** [bool(x)] of a value. *)
#[global] Instance value_truthy : Truthy value :=
  λ v, match v with
       | VNone => false
       | VBool b => b
       | VInt n => negb (Z.eqb n 0)
       | VStr s => truthy s
       | VList l => match l with [] => false | _ :: _ => true end
       | VDict d => truthy d
       end.

(** [d.get(key, default)]. *)
Definition py_get_default (d : value) (key : string) (dflt : value) : outcome value :=
  match d with
  | VDict m => Return (default dflt (m !! key))
  | _ => Raise AttributeError
  end.

(** What a command leaves on the terminal: the texts given to
    [console.print], and the documents given to [click.echo]. *)
Inductive output : Type :=
  | Printed (text : string)
  | Echoed (doc : document).

(** A running command: the machine of [config.py], the wire of [api.py],
    and the terminal. *)
Record process : Type := Process {
  os : world;
  sent : wire;
  console : list output
}.

(** A command finishes, leaves through [sys.exit], or dies of an
    exception nobody catches: one of Python's, or the [MarkupError] of
    [rich] for a text whose markup it rejects. *)
Inductive fault : Type :=
  | Python (e : exn)
  | MarkupError.

Inductive result (A : Type) : Type :=
  | Finished (a : A)
  | Exited (code : Z)
  | Crashed (f : fault).
Arguments Finished {A} a.
Arguments Exited {A} code.
Arguments Crashed {A} f.

Definition Cmd (A : Type) : Type := process → result A * process.

#[global] Instance Cmd_ret : MRet Cmd := λ A a p, (Finished a, p).
#[global] Instance Cmd_bind : MBind Cmd := λ A B k m p,
  match m p with
  | (Finished a, p') => k a p'
  | (Exited code, p') => (Exited code, p')
  | (Crashed f, p') => (Crashed f, p')
  end.

Definition completion {A} (o : outcome A) : result A :=
  match o with
  | Return a => Finished a
  | Raise e => Crashed (Python e)
  end.

Definition pure {A} (o : outcome A) : Cmd A := λ p, (completion o, p).

Definition in_os {A} (m : M world A) : Cmd A :=
  λ p, let (o, w) := m (os p) in (completion o, Process w (sent p) (console p)).

Definition on_wire {A} (m : M wire A) : Cmd A :=
  λ p, let (o, s) := m (sent p) in (completion o, Process (os p) s (console p)).

Definition sys_exit {A} (code : Z) : Cmd A := λ p, (Exited code, p).

Definition click_echo (doc : document) : Cmd unit :=
  λ p, (Finished tt, Process (os p) (sent p) (console p ++ [Echoed doc])%list).

Section commands.
(** The network the process runs on; Python's [str], which fills the holes
    of an f-string; and which texts [rich] accepts as markup. *)
Variable net : transport.
Variable format : value → string.
Variable renders : string → bool.

Definition console_print (text : string) : Cmd unit :=
  λ p, if renders text
       then (Finished tt, Process (os p) (sent p) (console p ++ [Printed text])%list)
       else (Crashed MarkupError, p).

(** [MoltbookClient(api_key)] formats the key into the header. *)
Definition get_client : Cmd MoltbookClient :=
  api_key ← in_os get_api_key;
  if negb (truthy api_key)
  then
    console_print "[red]No API key configured.[/red]";;
    console_print "Set it with: [cyan]moltbook config set api_key YOUR_KEY[/cyan]";;
    console_print "Or: [cyan]export MOLTBOOK_API_KEY=YOUR_KEY[/cyan]";;
    sys_exit 1
  else mret (__init__ net (format api_key)).

Definition output_json (data : value) : Cmd unit :=
  click_echo (json_dump data).

Definition handle_error (response : value) : Cmd unit :=
  success ← pure (py_get_default response "success" (VBool true));
  if negb (truthy success)
  then
    error ← pure (py_get_default response "error" (VStr "Unknown error"));
    hint ← pure (py_get_default response "hint" (VStr ""));
    console_print ("[red]Error:[/red] " +:+ format error);;
    (if truthy hint
     then console_print ("[dim]" +:+ format hint +:+ "[/dim]")
     else mret tt);;
    sys_exit 1
  else mret tt.

Definition comment (post_id content : string) (parent : option string)
    (as_json : bool) : Cmd unit :=
  client ← get_client;
  result ← on_wire (create_comment client post_id content parent);
  if as_json then output_json result
  else
    handle_error result;;
    console_print "[green]✓ Comment posted![/green]".

Definition upvote (post_id : string) (as_json : bool) : Cmd unit :=
  client ← get_client;
  result ← on_wire (Api.upvote client post_id);
  if as_json then output_json result
  else
    handle_error result;;
    console_print "[green]✓ Upvoted![/green]".

Definition downvote (post_id : string) (as_json : bool) : Cmd unit :=
  client ← get_client;
  result ← on_wire (Api.downvote client post_id);
  if as_json then output_json result
  else
    handle_error result;;
    console_print "[green]✓ Downvoted![/green]".

Definition dm_send (conversation_id message : string) (human as_json : bool)
    : Cmd unit :=
  client ← get_client;
  result ← on_wire (Api.dm_send client conversation_id message human);
  if as_json then output_json result
  else
    handle_error result;;
    console_print "[green]✓ Message sent![/green]".

Definition dm_request (to message : string) (by_owner as_json : bool) : Cmd unit :=
  client ← get_client;
  result ← on_wire (Api.dm_request client to message by_owner);
  if as_json then output_json result
  else
    handle_error result;;
    console_print "[green]✓ DM request sent![/green]".

Definition dm_approve (conversation_id : string) (as_json : bool) : Cmd unit :=
  client ← get_client;
  result ← on_wire (Api.dm_approve client conversation_id);
  if as_json then output_json result
  else
    handle_error result;;
    console_print "[green]✓ Request approved![/green]".

Definition dm_reject (conversation_id : string) (block as_json : bool) : Cmd unit :=
  client ← get_client;
  result ← on_wire (Api.dm_reject client conversation_id block);
  if as_json then output_json result
  else
    handle_error result;;
    let msg := if block then "Request rejected and blocked!" else "Request rejected!" in
    console_print ("[green]✓ " +:+ msg +:+ "[/green]").

Definition config_set (key value : string) : Cmd unit :=
  in_os (set_config_value key value);;
  console_print ("[green]✓ Set " +:+ key +:+ "[/green]").

Definition heartbeat (as_json : bool) : Cmd unit :=
  client ← get_client;
  status_result ← on_wire (status client);
  dm_result ← on_wire (dm_check client);
  if as_json
  then output_json (VDict {[ "status" := status_result; "dm" := dm_result ]})
  else
    success ← pure (py_get status_result "success");
    (if truthy success
     then console_print "[green]✓ Status OK[/green]"
     else
       error ← pure (py_get_default status_result "error" (VStr "unknown"));
       console_print ("[red]✗ Status: " +:+ format error +:+ "[/red]"));;
    has_activity ← pure (py_get dm_result "has_activity");
    (if truthy has_activity
     then
       summary ← pure (py_get_default dm_result "summary" (VStr "DM activity!"));
       console_print ("[yellow]📬 " +:+ format summary +:+ "[/yellow]")
     else console_print "[dim]No DM activity[/dim]");;
    console_print (String "010"%char "[green]HEARTBEAT_OK[/green]").

(** The commands that call one operation and report it in one line. *)
Inductive command : Type :=
  | Comment (post_id content : string) (parent : option string)
  | Upvote (post_id : string)
  | Downvote (post_id : string)
  | DmSend (conversation_id message : string) (human : bool)
  | DmRequest (to message : string) (by_owner : bool)
  | DmApprove (conversation_id : string)
  | DmReject (conversation_id : string) (block : bool).

Definition run (c : command) (as_json : bool) : Cmd unit :=
  match c with
  | Comment p t r => comment p t r as_json
  | Upvote p => upvote p as_json
  | Downvote p => downvote p as_json
  | DmSend i m h => dm_send i m h as_json
  | DmRequest t m o => dm_request t m o as_json
  | DmApprove i => dm_approve i as_json
  | DmReject i b => dm_reject i b as_json
  end.
End commands.

(** The operation a command calls, and the line it reports with. *)
Definition operation_of (c : command) : operation :=
  match c with
  | Comment p t r => CreateComment p t r
  | Upvote p => Api.Upvote p
  | Downvote p => Api.Downvote p
  | DmSend i m h => Api.DmSend i m h
  | DmRequest t m o => Api.DmRequest t m o
  | DmApprove i => Api.DmApprove i
  | DmReject i b => Api.DmReject i b
  end.

Definition report_of (c : command) : string :=
  match c with
  | Comment _ _ _ => "[green]✓ Comment posted![/green]"
  | Upvote _ => "[green]✓ Upvoted![/green]"
  | Downvote _ => "[green]✓ Downvoted![/green]"
  | DmSend _ _ _ => "[green]✓ Message sent![/green]"
  | DmRequest _ _ _ => "[green]✓ DM request sent![/green]"
  | DmApprove _ => "[green]✓ Request approved![/green]"
  | DmReject _ true => "[green]✓ Request rejected and blocked![/green]"
  | DmReject _ false => "[green]✓ Request rejected![/green]"
  end.

(** Python's [str] on strings, and a terminal that accepts every text:
    enough of both to run the commands on examples. *)
Definition format_str (v : value) : string :=
  match v with VStr s => s | _ => "" end.

Definition plain : string → bool := λ _, true.

Definition start (w : world) : process := Process w [] [].

(** A server that refuses every request with the [invalid_token]
    envelope, and one that answers every request with a post. *)
Definition refusing : transport := mock_transport 401 (Json invalid_token).
Definition serving : transport := mock_transport 200 (Json one_post).

End Cli.

(** ** Properties of the configuration store *)
Section config_properties.
Import Config.

Implicit Types (w : world) (m : dict).

Lemma load_config_document env dir v :
  load_config (World env dir (Some (Json v))) =
  (Return v, World env dir (Some (Json v))).
Proof. reflexivity. Qed.

(** Loading neither creates nor changes anything. *)
Lemma load_config_pure w : snd (load_config w) = w.
Proof.
  unfold load_config, mbind, M_bind, gets; simpl.
  destruct (config_file w) as [[v|raw]|]; reflexivity.
Qed.

(** Saving always succeeds, whether or not the directory was there, and
    leaves the document of the saved value in the file. *)
Lemma save_config_run (config : value) w :
  save_config config w =
  (Return tt, World (environ w) true (Some (Json config))).
Proof. reflexivity. Qed.

Lemma set_config_value_run key v w m :
  fst (load_config w) = Return (VDict m) →
  set_config_value key v w =
  (Return tt, World (environ w) true (Some (Json (VDict (<[key := VStr v]> m))))).
Proof.
  intros Hload.
  pose proof (load_config_pure w) as Hpure.
  unfold set_config_value, mbind, M_bind.
  destruct (load_config w) as [o w0]; simpl in Hload, Hpure; subst o w0.
  reflexivity.
Qed.

(** C7: when the configuration file does not exist, [load_config] returns
    the empty dictionary (and creates nothing); when the file exists and
    holds text that is not JSON, [load_config] raises the parse error of
    the [json] module instead of returning a dictionary. *)
Theorem load_config_absent_or_malformed :
  (∀ env dir,
     load_config (World env dir None) = (Return (VDict ∅), World env dir None)) ∧
  (∀ env dir raw,
     load_config (World env dir (Some (Malformed raw))) =
     (Raise JSONDecodeError, World env dir (Some (Malformed raw)))).
Proof. split; reflexivity. Qed.

(** C6: whatever dictionary [prior] the store holds, [set_config_value x v]
    succeeds, and a [load_config] after it returns a dictionary that maps
    [x] to [v] and agrees with [prior] on every other key. *)
Theorem set_config_value_then_load w (prior : dict) (x v : string) :
  fst (load_config w) = Return (VDict prior) →
  ∃ w' m,
    set_config_value x v w = (Return tt, w') ∧
    load_config w' = (Return (VDict m), w') ∧
    m !! x = Some (VStr v) ∧
    ∀ k, k ≠ x → m !! k = prior !! k.
Proof.
  intros Hload.
  eexists _, (<[x := VStr v]> prior).
  split; [ apply set_config_value_run, Hload | ].
  split; [ reflexivity | ].
  split; [ apply lookup_insert_eq | ].
  intros k Hk. apply lookup_insert_ne. congruence.
Qed.

Lemma set_config_value_then_load_witness :
  fst (load_config file_only) = Return (VDict stored_key) ∧
  ∃ w' m,
    set_config_value "x" "1" file_only = (Return tt, w') ∧
    load_config w' = (Return (VDict m), w') ∧
    m !! "x" = Some (VStr "1") ∧
    ∀ k, k ≠ "x" → m !! k = stored_key !! k.
Proof.
  split; [ reflexivity | ].
  apply (set_config_value_then_load file_only stored_key "x" "1").
  reflexivity.
Defined.

Lemma get_api_key_env w s :
  environ w !! "MOLTBOOK_API_KEY" = Some s → s ≠ "" → get_api_key w = (Return (VStr s), w).
Proof.
  unfold get_api_key, mbind, M_bind, gets; simpl.
  intros -> Hs. destruct s; [ congruence | reflexivity ].
Qed.

Lemma get_api_key_file w m :
  environ w !! "MOLTBOOK_API_KEY" = None ∨ environ w !! "MOLTBOOK_API_KEY" = Some "" →
  fst (load_config w) = Return (VDict m) →
  get_api_key w = (Return (default VNone (m !! "api_key")), w).
Proof.
  intros Henv Hload.
  pose proof (load_config_pure w) as Hpure.
  unfold get_api_key, mbind, M_bind, gets; simpl.
  assert (truthy (environ w !! "MOLTBOOK_API_KEY") = false) as ->
    by (destruct Henv as [-> | ->]; reflexivity).
  destruct (load_config w) as [o w0]; simpl in Hload, Hpure; subst o w0.
  reflexivity.
Qed.

(** C2, as the code has it: [get_api_key] returns the value of
    [MOLTBOOK_API_KEY] when the variable is set to a non-empty string,
    whatever the configuration file holds; when the variable is absent or
    empty it returns what the loaded configuration maps [api_key] to; and
    when the configuration has no such key either, it returns [None]. *)
Theorem get_api_key_resolution w :
  (∀ s, environ w !! "MOLTBOOK_API_KEY" = Some s → s ≠ "" →
        get_api_key w = (Return (VStr s), w)) ∧
  (∀ m v, (environ w !! "MOLTBOOK_API_KEY" = None ∨ environ w !! "MOLTBOOK_API_KEY" = Some "") →
          fst (load_config w) = Return (VDict m) →
          m !! "api_key" = Some v →
          get_api_key w = (Return v, w)) ∧
  (∀ m, (environ w !! "MOLTBOOK_API_KEY" = None ∨ environ w !! "MOLTBOOK_API_KEY" = Some "") →
        fst (load_config w) = Return (VDict m) →
        m !! "api_key" = None →
        get_api_key w = (Return VNone, w)).
Proof.
  split; [ | split ].
  - apply get_api_key_env.
  - intros m v Henv Hload Hkey.
    rewrite (get_api_key_file w m Henv Hload), Hkey. reflexivity.
  - intros m Henv Hload Hkey.
    rewrite (get_api_key_file w m Henv Hload), Hkey. reflexivity.
Qed.

Lemma get_api_key_resolution_witness :
  get_api_key env_and_file = (Return (VStr "ENVKEY"), env_and_file) ∧
  get_api_key file_only = (Return (VStr "FILEKEY"), file_only) ∧
  get_api_key fresh = (Return VNone, fresh).
Proof.
  split; [ | split ].
  - apply (proj1 (get_api_key_resolution env_and_file) "ENVKEY");
      [ reflexivity | discriminate ].
  - apply (proj1 (proj2 (get_api_key_resolution file_only)) stored_key);
      [ left; reflexivity | reflexivity | reflexivity ].
  - apply (proj2 (proj2 (get_api_key_resolution fresh)) ∅);
      [ left; reflexivity | reflexivity | reflexivity ].
Defined.

(** C2 as the specification words it fails where the variable is set to
    the empty string: the stored key is returned, not the variable's
    value. *)
Lemma get_api_key_empty_env_counterexample :
  environ empty_env_and_file !! "MOLTBOOK_API_KEY" = Some "" ∧
  fst (get_api_key empty_env_and_file) = Return (VStr "FILEKEY") ∧
  fst (get_api_key empty_env_and_file) ≠ Return (VStr "").
Proof.
  split; [ reflexivity | ].
  split; [ reflexivity | ].
  vm_compute. discriminate.
Qed.
End config_properties.

(** ** Properties of the API client *)
Section client_properties.
Import Api.

Implicit Types (self : MoltbookClient) (sent : wire) (kw : kwargs).

(** Every request goes through [_request], which puts one request on the
    wire and returns what the body of the answer parses to. *)
Lemma _request_wire self method endpoint kw sent :
  snd (_request self method endpoint kw sent) =
  (sent ++ [build_request (client self) method endpoint kw])%list.
Proof.
  unfold _request, client_request, mbind, M_bind, modify; simpl.
  destruct (mounted _ _) as [[code [v|raw]]|]; reflexivity.
Qed.

Lemma _request_result self method endpoint kw sent :
  fst (_request self method endpoint kw sent) =
  match mounted (client self) (build_request (client self) method endpoint kw) with
  | Responded r => json_load (content r)
  | Failed => Raise TransportError
  end.
Proof.
  unfold _request, client_request, mbind, M_bind, modify; simpl.
  destruct (mounted _ _) as [[code [v|raw]]|]; reflexivity.
Qed.

Lemma _request_issues self method endpoint kw :
  issues (_request self method endpoint kw)
         (build_request (client self) method endpoint kw).
Proof. intros sent. apply _request_wire. Qed.

Lemma issues_unique {A} (m : M wire A) req1 req2 :
  issues m req1 → issues m req2 → req1 = req2.
Proof.
  intros H1 H2. specialize (H1 []). specialize (H2 []).
  rewrite H1 in H2. simpl in H2. congruence.
Qed.

(** A transport fault and a body that is not JSON are not caught: both
    surface as exceptions of the operation. *)
Lemma _request_transport_fault self method endpoint kw sent :
  mounted (client self) (build_request (client self) method endpoint kw) = Failed →
  fst (_request self method endpoint kw sent) = Raise TransportError.
Proof. intros H. rewrite _request_result, H. reflexivity. Qed.

Lemma _request_malformed_body self method endpoint kw sent code raw :
  mounted (client self) (build_request (client self) method endpoint kw) =
    Responded (HttpResponse code (Malformed raw)) →
  fst (_request self method endpoint kw sent) = Raise JSONDecodeError.
Proof. intros H. rewrite _request_result, H. reflexivity. Qed.

(** Each operation is one call of [_request], and none passes headers or
    a timeout of its own. *)
Lemma call_request self op :
  ∃ method endpoint kw,
    call self op = _request self method endpoint kw ∧
    kw_headers kw = None ∧ kw_timeout kw = None.
Proof. destruct op; do 3 eexists; (split; [ reflexivity | split; reflexivity ]). Qed.

(** C1: whatever the operation, when the transport answers with a body
    that is a JSON document, the operation returns the value of that
    document as it is and does not raise, whatever the status code of the
    answer and whatever the document says about success; so [status]
    against a transport answering with the [invalid_token] envelope
    returns that envelope. *)
Theorem call_returns_body net api_key op sent v :
  (∀ req, ∃ code, net req = Responded (HttpResponse code (Json v))) →
  fst (call (__init__ net api_key) op sent) = Return v.
Proof.
  intros Hnet.
  destruct (call_request (__init__ net api_key) op)
    as (method & endpoint & kw & -> & _ & _).
  destruct (Hnet (build_request (client (__init__ net api_key)) method endpoint kw))
    as [code Hcode].
  rewrite _request_result.
  change (mounted (client (__init__ net api_key))) with net.
  rewrite Hcode. reflexivity.
Qed.

Lemma status_invalid_token_witness :
  fst (status (__init__ (mock_transport 401 (Json invalid_token)) "KEY") []) =
  Return invalid_token.
Proof.
  apply (call_returns_body (mock_transport 401 (Json invalid_token)) "KEY" Status []).
  intros req. exists 401. reflexivity.
Defined.

(** The requests of [_request], and of every operation. *)
Lemma issued_request self method endpoint kw sent :
  issued (_request self method endpoint kw) sent =
  [ build_request (client self) method endpoint kw ].
Proof. unfold issued. rewrite _request_wire. apply drop_app_length. Qed.








(** C9: [feed("top", 5)] issues one request, a GET to [/feed] under the
    base URL with the query parameters [sort=top] and [limit=5] and no
    body, and returns the value of the answer's body as it is. *)
Theorem feed_top_5 net api_key :
  ∃ req,
    issues (feed (__init__ net api_key) "top" 5) req ∧
    req_method req = "GET" ∧
    req_url req = API_BASE +:+ "/feed" ∧
    req_params req = {[ "sort" := VStr "top"; "limit" := VInt 5 ]} ∧
    req_json req = None ∧
    ∀ code v sent,
      net req = Responded (HttpResponse code (Json v)) →
      fst (feed (__init__ net api_key) "top" 5 sent) = Return v.
Proof.
  eexists. split; [ apply _request_issues | ].
  do 4 (split; [ reflexivity | ]).
  intros code v sent Hnet.
  unfold feed, get. rewrite _request_result.
  change (mounted (client (__init__ net api_key))) with net.
  rewrite Hnet. reflexivity.
Qed.

Lemma feed_top_5_witness :
  fst (feed demo_client "top" 5 []) = Return one_post.
Proof.
  destruct (feed_top_5 (mock_transport 200 (Json one_post)) "KEY")
    as (req & _ & _ & _ & _ & _ & Hret).
  apply (Hret 200 one_post []). reflexivity.
Defined.

(** Optional fields, one operation at a time. *)
Lemma create_post_fields self submolt content title url :
  ∃ req body,
    issues (create_post self submolt content title url) req ∧
    req_json req = Some body ∧
    omitted_or_sent title (body !! "title") ∧
    omitted_or_sent url (body !! "url").
Proof.
  do 2 eexists. split; [ apply _request_issues | ].
  split; [ reflexivity | ].
  unfold omitted_or_sent.
  destruct title as [[|a t]|], url as [[|b u]|]; simpl;
    repeat split; intros; simplify_eq; try (destruct_or?; simplify_eq);
    by simplify_map_eq.
Qed.

Lemma posts_fields self sort limit submolt :
  ∃ req,
    issues (posts self sort limit submolt) req ∧
    omitted_or_sent submolt (req_params req !! "submolt").
Proof.
  eexists. split; [ apply _request_issues | ].
  unfold omitted_or_sent.
  destruct submolt as [[|a t]|]; simpl;
    repeat split; intros; simplify_eq; try (destruct_or?; simplify_eq);
    by simplify_map_eq.
Qed.

Lemma dm_send_fields self conversation_id message (needs_human_input : bool) :
  ∃ req body,
    issues (dm_send self conversation_id message needs_human_input) req ∧
    req_json req = Some body ∧
    body !! "needs_human_input" =
      if needs_human_input then Some (VBool true) else None.
Proof.
  do 2 eexists. split; [ apply _request_issues | ].
  split; [ reflexivity | ].
  destruct needs_human_input; simpl; by simplify_map_eq.
Qed.

(** C3, as the code has it: in the body of [create_post] the keys [title]
    and [url], and in the query of [posts] the key [submolt], are left out
    when the argument is [None] or the empty string, and carry the
    argument when it is a non-empty string; in the body of [dm_send] the
    key [needs_human_input] is left out when the argument is false and is
    [True] when it is true. *)
Theorem optional_fields self :
  (∀ submolt content title url,
     ∃ req body,
       issues (create_post self submolt content title url) req ∧
       req_json req = Some body ∧
       omitted_or_sent title (body !! "title") ∧
       omitted_or_sent url (body !! "url")) ∧
  (∀ sort limit submolt,
     ∃ req,
       issues (posts self sort limit submolt) req ∧
       omitted_or_sent submolt (req_params req !! "submolt")) ∧
  (∀ conversation_id message (needs_human_input : bool),
     ∃ req body,
       issues (dm_send self conversation_id message needs_human_input) req ∧
       req_json req = Some body ∧
       body !! "needs_human_input" =
         if needs_human_input then Some (VBool true) else None).
Proof.
  split; [ | split ]; intros.
  - apply create_post_fields.
  - apply posts_fields.
  - apply dm_send_fields.
Qed.

Lemma optional_fields_witness :
  ∃ req body,
    issues (create_post demo_client "general" "hello" (Some "Hi") None) req ∧
    req_json req = Some body ∧
    body !! "title" = Some (VStr "Hi") ∧
    body !! "url" = None.
Proof.
  destruct (proj1 (optional_fields demo_client) "general" "hello" (Some "Hi") None)
    as (req & body & Hreq & Hbody & [_ Htitle] & [Hurl _]).
  exists req, body.
  split; [ exact Hreq | ].
  split; [ exact Hbody | ].
  split.
  - apply Htitle; [ reflexivity | discriminate ].
  - apply Hurl. left. reflexivity.
Defined.

(** C3 as the specification words it fails for an argument that is
    present and empty: the title [""] is given, the one request issued has
    a body without the key [title], and no request is issued whose body
    maps [title] to [""]. *)
Lemma create_post_empty_title_counterexample :
  (∃ req body,
     issues (create_post demo_client "general" "hello" (Some "") None) req ∧
     req_json req = Some body ∧
     body !! "title" = None) ∧
  ¬ (∃ req body,
       issues (create_post demo_client "general" "hello" (Some "") None) req ∧
       req_json req = Some body ∧
       body !! "title" = Some (VStr "")).
Proof.
  split.
  - do 2 eexists. split; [ apply _request_issues | ].
    split; reflexivity.
  - intros (req & body & Hreq & Hbody & Htitle).
    pose proof (issues_unique _ _ _ Hreq (_request_issues _ _ _ _)) as ->.
    simpl in Hbody. injection Hbody as <-.
    vm_compute in Htitle. discriminate.
Qed.

(** C4: the body of [dm_request] always has [message]; with [by_owner] it
    maps [to_owner] to the recipient and has no [to], and without it maps
    [to] to the recipient and has no [to_owner]. *)
Theorem dm_request_recipient_key self to message (by_owner : bool) :
  ∃ req body,
    issues (dm_request self to message by_owner) req ∧
    req_json req = Some body ∧
    body !! "message" = Some (VStr message) ∧
    if by_owner
    then body !! "to_owner" = Some (VStr to) ∧ body !! "to" = None
    else body !! "to" = Some (VStr to) ∧ body !! "to_owner" = None.
Proof.
  do 2 eexists. split; [ apply _request_issues | ].
  split; [ reflexivity | ].
  destruct by_owner; simpl; repeat split; by simplify_map_eq.
Qed.

(** C5: [dm_reject] posts to [/agents/dm/requests/{id}/reject]; without
    [block] the request has no JSON payload, and with [block] the payload
    is the dictionary with the one entry [block: True]. *)
Theorem dm_reject_payload net api_key conversation_id :
  (∃ req,
     issues (dm_reject (__init__ net api_key) conversation_id false) req ∧
     req_method req = "POST" ∧
     req_url req =
       API_BASE +:+ "/agents/dm/requests/" +:+ conversation_id +:+ "/reject" ∧
     req_json req = None) ∧
  (∃ req,
     issues (dm_reject (__init__ net api_key) conversation_id true) req ∧
     req_method req = "POST" ∧
     req_url req =
       API_BASE +:+ "/agents/dm/requests/" +:+ conversation_id +:+ "/reject" ∧
     req_json req = Some {[ "block" := VBool true ]}).
Proof.
  split; eexists; (split; [ apply _request_issues | ]);
    repeat split; reflexivity.
Qed.

(** C10: the empty string given for [title], [url], [submolt] or
    [parent_id] does what leaving the argument out does, and the key is
    not in the request. *)
Theorem empty_string_as_omitted self :
  (∀ submolt content url,
     create_post self submolt content (Some "") url =
     create_post self submolt content None url) ∧
  (∀ submolt content title,
     create_post self submolt content title (Some "") =
     create_post self submolt content title None) ∧
  (∀ sort limit,
     posts self sort limit (Some "") = posts self sort limit None) ∧
  (∀ post_id content,
     create_comment self post_id content (Some "") =
     create_comment self post_id content None) ∧
  (∀ submolt content,
     ∃ req body,
       issues (create_post self submolt content (Some "") (Some "")) req ∧
       req_json req = Some body ∧
       body !! "title" = None ∧ body !! "url" = None) ∧
  (∀ sort limit,
     ∃ req,
       issues (posts self sort limit (Some "")) req ∧
       req_params req !! "submolt" = None) ∧
  (∀ post_id content,
     ∃ req body,
       issues (create_comment self post_id content (Some "")) req ∧
       req_json req = Some body ∧
       body !! "parent_id" = None).
Proof.
  do 4 (split; [ reflexivity | ]).
  split; [ | split ]; intros.
  - do 2 eexists. split; [ apply _request_issues | ].
    repeat split; reflexivity.
  - eexists. split; [ apply _request_issues | ]. reflexivity.
  - do 2 eexists. split; [ apply _request_issues | ].
    repeat split; reflexivity.
Qed.
End client_properties.

(** ** More on the configuration store *)
Section config_store.
Import Config.

Implicit Types (w : world) (m : dict).

(** What a run leaves behind. *)
Lemma get_config_value_run key w m :
  fst (load_config w) = Return (VDict m) →
  get_config_value key w = (Return (default VNone (m !! key)), w).
Proof.
  intros Hload.
  pose proof (load_config_pure w) as Hpure.
  unfold get_config_value, mbind, M_bind.
  destruct (load_config w) as [o w0]; simpl in Hload, Hpure; subst o w0.
  reflexivity.
Qed.

Lemma load_after_set key v w m :
  fst (load_config w) = Return (VDict m) →
  fst (load_config (snd (set_config_value key v w))) =
  Return (VDict (<[key := VStr v]> m)).
Proof. intros Hload. rewrite (set_config_value_run key v w m Hload). reflexivity. Qed.

(** X1: After [set_config_value x v], [get_config_value x] returns [v], and
    [get_config_value] of any other key returns what it returned before. *)
Theorem get_config_value_after_set w (prior : dict) (x v : string) :
  fst (load_config w) = Return (VDict prior) →
  let w' := snd (set_config_value x v w) in
  fst (get_config_value x w') = Return (VStr v) ∧
  ∀ k, k ≠ x → fst (get_config_value k w') = fst (get_config_value k w).
Proof.
  intros Hload w'.
  pose proof (load_after_set x v w prior Hload) as Hload'. fold w' in Hload'.
  split.
  - rewrite (get_config_value_run x w' _ Hload'); simpl.
    rewrite lookup_insert_eq. reflexivity.
  - intros k Hk.
    rewrite (get_config_value_run k w' _ Hload'), (get_config_value_run k w _ Hload).
    simpl. rewrite lookup_insert_ne by congruence. reflexivity.
Qed.

Lemma get_config_value_after_set_witness :
  fst (get_config_value "x" (snd (set_config_value "x" "1" file_only))) =
    Return (VStr "1") ∧
  ∀ k, k ≠ "x" →
    fst (get_config_value k (snd (set_config_value "x" "1" file_only))) =
    fst (get_config_value k file_only).
Proof.
  apply (get_config_value_after_set file_only stored_key "x" "1").
  reflexivity.
Defined.

Lemma readers_keep w key :
  snd (load_config w) = w ∧
  snd (get_config_value key w) = w ∧
  snd (get_api_key w) = w.
Proof.
  split; [ apply load_config_pure | ].
  pose proof (load_config_pure w) as Hpure.
  split.
  - unfold get_config_value, mbind, M_bind.
    destruct (load_config w) as [[c|e] w0]; simpl in Hpure; subst w0;
      [ destruct c | ]; reflexivity.
  - unfold get_api_key, mbind, M_bind, gets; simpl.
    destruct (truthy (environ w !! "MOLTBOOK_API_KEY")); [ reflexivity | ].
    destruct (load_config w) as [[c|e] w0]; simpl in Hpure; subst w0;
      [ destruct c | ]; reflexivity.
Qed.

(** X2: The readers [load_config], [get_config_value] and [get_api_key] never
    write: whether they return or raise, they leave the environment, the
    directory and the file as they found them. *)
Theorem readers_never_write w key :
  snd (load_config w) = w ∧
  snd (get_config_value key w) = w ∧
  snd (get_api_key w) = w.
Proof. apply readers_keep. Qed.

(** X3: A configuration file that is not JSON is never overwritten: both
    setters raise the parse error and leave the world as it was (the
    directory is not created either). *)
Theorem setters_keep_malformed_file env dir raw key v :
  let w := World env dir (Some (Malformed raw)) in
  set_config_value key v w = (Raise JSONDecodeError, w) ∧
  set_api_key v w = (Raise JSONDecodeError, w).
Proof. split; reflexivity. Qed.

(** X4: A configuration file that holds JSON other than an object ([null], a
    number, a string, a list) makes the setters raise [TypeError] and the
    getters raise [AttributeError]; nothing is written. *)
Theorem non_object_config env dir (j : value) key v :
  (∀ m, j ≠ VDict m) →
  let w := World env dir (Some (Json j)) in
  set_config_value key v w = (Raise TypeError, w) ∧
  set_api_key v w = (Raise TypeError, w) ∧
  get_config_value key w = (Raise AttributeError, w) ∧
  (env !! "MOLTBOOK_API_KEY" = None ∨ env !! "MOLTBOOK_API_KEY" = Some "" →
   get_api_key w = (Raise AttributeError, w)).
Proof.
  intros Hj w.
  destruct j as [| b | n | s | l | m]; try (exfalso; apply (Hj m); reflexivity);
    (repeat split; try reflexivity;
     intros Henv; unfold w, get_api_key, mbind, M_bind, gets; simpl;
     destruct Henv as [-> | ->]; reflexivity).
Qed.

Lemma non_object_config_witness :
  let w := World ∅ true (Some (Json (VList [ VStr "a" ]))) in
  set_config_value "x" "1" w = (Raise TypeError, w) ∧
  set_api_key "1" w = (Raise TypeError, w) ∧
  get_config_value "x" w = (Raise AttributeError, w) ∧
  get_api_key w = (Raise AttributeError, w).
Proof.
  destruct (non_object_config ∅ true (VList [ VStr "a" ]) "x" "1")
    as (Hset & Hkey & Hget & Hapi); [ intros m; discriminate | ].
  intros w.
  split; [ exact Hset | ].
  split; [ exact Hkey | ].
  split; [ exact Hget | ].
  apply Hapi. left. reflexivity.
Defined.

(** X5: With the variable absent or empty, a configuration file that is not
    JSON makes [get_api_key] raise the parse error; with the variable set
    to a non-empty string the file is not read, whatever it holds. *)
Theorem get_api_key_malformed_file env dir raw :
  let w := World env dir (Some (Malformed raw)) in
  (env !! "MOLTBOOK_API_KEY" = None ∨ env !! "MOLTBOOK_API_KEY" = Some "" →
   get_api_key w = (Raise JSONDecodeError, w)) ∧
  (∀ s, env !! "MOLTBOOK_API_KEY" = Some s → s ≠ "" →
        get_api_key w = (Return (VStr s), w)).
Proof.
  intros w. split.
  - intros Henv. unfold w, get_api_key, mbind, M_bind, gets; simpl.
    destruct Henv as [-> | ->]; reflexivity.
  - intros s Hs Hne. apply get_api_key_env; assumption.
Qed.

Lemma get_api_key_malformed_file_witness :
  get_api_key (World ∅ true (Some (Malformed "{"))) =
    (Raise JSONDecodeError, World ∅ true (Some (Malformed "{"))) ∧
  get_api_key (World {[ "MOLTBOOK_API_KEY" := "ENVKEY" ]} true (Some (Malformed "{"))) =
    (Return (VStr "ENVKEY"),
     World {[ "MOLTBOOK_API_KEY" := "ENVKEY" ]} true (Some (Malformed "{"))).
Proof.
  split.
  - apply (proj1 (get_api_key_malformed_file ∅ true "{")). left. reflexivity.
  - apply (proj2 (get_api_key_malformed_file {[ "MOLTBOOK_API_KEY" := "ENVKEY" ]} true "{")
             "ENVKEY"); [ reflexivity | discriminate ].
Defined.

(** X6: [set_api_key] is [set_config_value] at the key [api_key], so the key
    it stores is the one [get_api_key] falls back to: with the variable
    absent or empty, [get_api_key] after [set_api_key k] returns [k]; with
    the variable set to a non-empty string it still returns the variable. *)
Theorem get_api_key_after_set w (prior : dict) (k : string) :
  fst (load_config w) = Return (VDict prior) →
  let w' := snd (set_api_key k w) in
  set_api_key k w = set_config_value "api_key" k w ∧
  (environ w !! "MOLTBOOK_API_KEY" = None ∨
   environ w !! "MOLTBOOK_API_KEY" = Some "" →
   fst (get_api_key w') = Return (VStr k)) ∧
  (∀ s, environ w !! "MOLTBOOK_API_KEY" = Some s → s ≠ "" →
        fst (get_api_key w') = Return (VStr s)).
Proof.
  intros Hload w'.
  split; [ reflexivity | ].
  assert (w' = World (environ w) true
                 (Some (Json (VDict (<["api_key" := VStr k]> prior))))) as Hw'.
  { unfold w'. change (set_api_key k w) with (set_config_value "api_key" k w).
    rewrite (set_config_value_run "api_key" k w prior Hload). reflexivity. }
  split.
  - intros Henv.
    rewrite (get_api_key_file w' (<["api_key" := VStr k]> prior)).
    + simpl. rewrite lookup_insert_eq. reflexivity.
    + rewrite Hw'. exact Henv.
    + rewrite Hw'. reflexivity.
  - intros s Hs Hne.
    rewrite (get_api_key_env w' s); [ reflexivity | | exact Hne ].
    rewrite Hw'. exact Hs.
Qed.

Lemma get_api_key_after_set_witness :
  fst (get_api_key (snd (set_api_key "NEWKEY" fresh))) = Return (VStr "NEWKEY") ∧
  fst (get_api_key (snd (set_api_key "NEWKEY" env_and_file))) = Return (VStr "ENVKEY").
Proof.
  split.
  - destruct (get_api_key_after_set fresh ∅ "NEWKEY" eq_refl) as (_ & Hfile & _).
    apply Hfile. left. reflexivity.
  - destruct (get_api_key_after_set env_and_file stored_key "NEWKEY" eq_refl)
      as (_ & _ & Henv).
    apply (Henv "ENVKEY"); [ reflexivity | discriminate ].
Defined.

(** X7: The last write to a key wins: setting [x] twice leaves the world that
    the second setting alone leaves. *)
Theorem set_config_value_overwrites w (prior : dict) (x v1 v2 : string) :
  fst (load_config w) = Return (VDict prior) →
  (set_config_value x v1;; set_config_value x v2) w = set_config_value x v2 w.
Proof.
  intros Hload.
  unfold mbind at 1, M_bind at 1.
  rewrite (set_config_value_run x v1 w prior Hload).
  rewrite (set_config_value_run x v2 w prior Hload).
  erewrite set_config_value_run by reflexivity.
  simpl. rewrite insert_insert_eq. reflexivity.
Qed.

Lemma set_config_value_overwrites_witness :
  (set_config_value "x" "1";; set_config_value "x" "2") file_only =
  set_config_value "x" "2" file_only.
Proof.
  apply (set_config_value_overwrites file_only stored_key "x" "1" "2").
  reflexivity.
Defined.

(** X8: Settings of two different keys commute for every reader: after
    either order, the configuration loads as the same dictionary, with both
    keys set and every other key as before.  (Equality of dictionaries is
    Python's [==], which does not look at the order of the keys; the order
    in which the file lists two new keys is the order of the writes.) *)
Theorem set_config_value_commutes w (prior : dict) (x y v u : string) :
  fst (load_config w) = Return (VDict prior) →
  x ≠ y →
  let w1 := snd ((set_config_value x v;; set_config_value y u) w) in
  let w2 := snd ((set_config_value y u;; set_config_value x v) w) in
  fst (load_config w1) = fst (load_config w2) ∧
  ∃ m,
    fst (load_config w1) = Return (VDict m) ∧
    m !! x = Some (VStr v) ∧
    m !! y = Some (VStr u) ∧
    ∀ k, k ≠ x → k ≠ y → m !! k = prior !! k.
Proof.
  intros Hload Hxy w1 w2.
  assert (fst (load_config w1) = Return (VDict (<[y := VStr u]> (<[x := VStr v]> prior))))
    as H1.
  { unfold w1, mbind, M_bind.
    rewrite (set_config_value_run x v w prior Hload).
    erewrite set_config_value_run by reflexivity. reflexivity. }
  assert (fst (load_config w2) = Return (VDict (<[x := VStr v]> (<[y := VStr u]> prior))))
    as H2.
  { unfold w2, mbind, M_bind.
    rewrite (set_config_value_run y u w prior Hload).
    erewrite set_config_value_run by reflexivity. reflexivity. }
  split.
  - rewrite H1, H2, (insert_insert_ne prior x y) by exact Hxy. reflexivity.
  - eexists. split; [ exact H1 | ].
    split; [ | split ].
    + rewrite lookup_insert_ne by congruence. apply lookup_insert_eq.
    + apply lookup_insert_eq.
    + intros k Hx Hy. rewrite !lookup_insert_ne by congruence. reflexivity.
Qed.

Lemma set_config_value_commutes_witness :
  fst (load_config
         (snd ((set_config_value "x" "1";; set_config_value "y" "2") file_only))) =
  fst (load_config
         (snd ((set_config_value "y" "2";; set_config_value "x" "1") file_only))).
Proof.
  apply (set_config_value_commutes file_only stored_key "x" "y" "1" "2").
  - reflexivity.
  - discriminate.
Defined.

(** X9: On a first run, with no file and with or without the directory,
    [set_config_value] creates the directory and a file that holds the one
    entry and nothing else. *)
Theorem set_config_value_first_run env dir key v :
  set_config_value key v (World env dir None) =
  (Return tt, World env true (Some (Json (VDict {[ key := VStr v ]})))).
Proof. reflexivity. Qed.

(** X10: No function of the store touches the environment, and none removes
    the directory. *)
Theorem store_keeps_environment w key v (config : value) :
  let after := [ snd (load_config w); snd (get_api_key w);
                 snd (get_config_value key w); snd (set_api_key v w);
                 snd (set_config_value key v w); snd (save_config config w);
                 snd (get_config_dir w) ] in
  Forall (λ w', environ w' = environ w ∧
                (config_dir w = true → config_dir w' = true)) after.
Proof.
  intros after.
  pose proof (load_config_pure w) as Hpure.
  destruct (readers_keep w key) as (Hload & Hget & Hkey).
  assert (∀ k, environ (snd (set_config_value k v w)) = environ w ∧
               (config_dir w = true → config_dir (snd (set_config_value k v w)) = true))
    as Hset.
  { intros k. unfold set_config_value, mbind, M_bind.
    destruct (load_config w) as [[c|e] w0]; simpl in Hpure; subst w0;
      [ destruct c | ]; simpl; auto. }
  unfold after. repeat apply List.Forall_cons; try apply List.Forall_nil.
  - rewrite Hload. auto.
  - rewrite Hkey. auto.
  - rewrite Hget. auto.
  - apply (Hset "api_key").
  - apply Hset.
  - simpl. auto.
  - simpl. auto.
Qed.

Lemma store_keeps_environment_witness :
  Forall (λ w', environ w' = environ file_only ∧
                (config_dir file_only = true → config_dir w' = true))
         [ snd (load_config file_only); snd (get_api_key file_only);
           snd (get_config_value "x" file_only); snd (set_api_key "1" file_only);
           snd (set_config_value "x" "1" file_only);
           snd (save_config (VStr "1") file_only);
           snd (get_config_dir file_only) ].
Proof. apply (store_keeps_environment file_only "x" "1" (VStr "1")). Defined.
End config_store.

(** ** More on the API client *)
Section client_requests.
Import Api.

Implicit Types (self : MoltbookClient) (sent : wire) (kw : kwargs).

(** X11: A fault of the transport is neither caught nor retried: when the
    transport fails on a request an operation has put on the wire, the
    operation raises the transport's error, and that request is the only
    one it has sent. *)
Theorem transport_fault_is_not_retried net api_key op sent req :
  req ∈ issued (call (__init__ net api_key) op) sent →
  net req = Failed →
  fst (call (__init__ net api_key) op sent) = Raise TransportError ∧
  issued (call (__init__ net api_key) op) sent = [ req ].
Proof.
  destruct (call_request (__init__ net api_key) op)
    as (method & endpoint & kw & -> & _ & _).
  rewrite issued_request. intros ->%list_elem_of_singleton Hnet.
  split; [ | reflexivity ].
  apply _request_transport_fault. exact Hnet.
Qed.

Lemma dict_truthy_empty : dict_truthy ∅ = false.
Proof. reflexivity. Qed.

Lemma dict_truthy_insert (k : string) (v : value) (m : dict) :
  dict_truthy (<[k := v]> m) = true.
Proof.
  unfold dict_truthy.
  destruct (size (<[k := v]> m)) eqn:Hsize; [ | reflexivity ].
  apply map_size_empty_iff in Hsize.
  destruct (insert_non_empty m k v Hsize).
Qed.

Ltac one_request :=
  eexists; split; [ apply _request_issues | ].

Ltac show_request :=
  lazy beta iota zeta delta
    [ req_method req_params req_json build_request
      with_params with_json no_kwargs kw_params kw_json
      default from_option truthy optional_truthy str_truthy bool_truthy
      optional_str ];
  rewrite ?dict_truthy_insert, ?dict_truthy_empty.


Ltac all_entries :=
  lazymatch goal with
  | |- map_Forall _ (id ?m) => change (id m) with m; all_entries
  | |- map_Forall _ (insert _ _ _) =>
      apply map_Forall_insert_2; [ reflexivity | all_entries ]
  | |- map_Forall _ (singletonM _ _) => apply map_Forall_singleton; reflexivity
  | |- map_Forall _ ∅ => apply map_Forall_empty
  | |- True => exact I
  end.

(** X13: No operation ever sends [None] or [False] for a field: no value in
    the query or in the JSON body of any request is one of the two. *)
Theorem no_placeholder_is_sent self op :
  ∃ req,
    issues (call self op) req ∧
    map_Forall (λ _ v, placeholder v = false) (req_params req) ∧
    from_option (map_Forall (λ _ v, placeholder v = false)) True (req_json req).
Proof.
  destruct op as
    [ | sort limit | sort limit [[|a s]|] | submolt content [[|a t]|] [[|b u]|]
    | post_id | post_id content [[|a p]|] | post_id | post_id | | | conversation_id
    | conversation_id message [|] | to message [|] | | conversation_id
    | conversation_id [|] | | query ];
    one_request; unfold call; (split; show_request; all_entries).
Qed.

(** X14: When a request has a JSON body, the body is not the empty object. *)
Theorem no_empty_body_is_sent self op :
  ∃ req,
    issues (call self op) req ∧
    ∀ body, req_json req = Some body → body ≠ ∅.
Proof.
  destruct op as
    [ | sort limit | sort limit submolt | submolt content [[|a t]|] [[|b u]|]
    | post_id | post_id content [[|a p]|] | post_id | post_id | | | conversation_id
    | conversation_id message [|] | to message [|] | | conversation_id
    | conversation_id [|] | | query ];
    one_request; unfold call; show_request; intros body [= <-];
    lazymatch goal with
    | |- insert _ _ _ ≠ ∅ => apply insert_non_empty
    | |- singletonM _ _ ≠ ∅ => apply (map_non_empty_singleton (M := gmap string))
    end.
Qed.

(** X15: The fields an operation always sends are never displaced by the
    optional ones: [create_post] always sends [submolt] and [content],
    [posts] always sends [sort] and [limit], [create_comment] always sends
    [content], and [dm_send] always sends [message], each with the value of
    the argument. *)
Theorem required_fields_are_sent self :
  (∀ submolt content title url,
     ∃ req body,
       issues (create_post self submolt content title url) req ∧
       req_json req = Some body ∧
       body !! "submolt" = Some (VStr submolt) ∧
       body !! "content" = Some (VStr content)) ∧
  (∀ sort limit submolt,
     ∃ req,
       issues (posts self sort limit submolt) req ∧
       req_params req !! "sort" = Some (VStr sort) ∧
       req_params req !! "limit" = Some (VInt limit)) ∧
  (∀ post_id content parent_id,
     ∃ req body,
       issues (create_comment self post_id content parent_id) req ∧
       req_json req = Some body ∧
       body !! "content" = Some (VStr content)) ∧
  (∀ conversation_id message needs_human_input,
     ∃ req body,
       issues (dm_send self conversation_id message needs_human_input) req ∧
       req_json req = Some body ∧
       body !! "message" = Some (VStr message)).
Proof.
  split; [ | split; [ | split ] ].
  - intros submolt content [[|a t]|] [[|b u]|]; do 2 eexists;
      (split; [ apply _request_issues | ]); (split; [ reflexivity | ]);
      split; by simplify_map_eq.
  - intros sort limit [[|a s]|]; one_request; split; by simplify_map_eq.
  - intros post_id content [[|a p]|]; do 2 eexists;
      (split; [ apply _request_issues | ]); (split; [ reflexivity | ]);
      by simplify_map_eq.
  - intros conversation_id message [|]; do 2 eexists;
      (split; [ apply _request_issues | ]); (split; [ reflexivity | ]);
      by simplify_map_eq.
Qed.



(** X17: The credential travels in the [Authorization] header and nowhere
    else: the requests that clients built with different credentials issue
    for the same operation have the same method, URL, query, body and
    timeout, and the same headers but for [Authorization], which carries
    each client's own credential. *)
Theorem credential_only_in_header net key1 key2 op sent1 sent2 req1 req2 :
  req1 ∈ issued (call (__init__ net key1) op) sent1 →
  req2 ∈ issued (call (__init__ net key2) op) sent2 →
  req_headers req1 !! "Authorization" = Some ("Bearer " +:+ key1) ∧
  req_headers req2 !! "Authorization" = Some ("Bearer " +:+ key2) ∧
  delete "Authorization" (req_headers req1) =
    delete "Authorization" (req_headers req2) ∧
  req_method req1 = req_method req2 ∧
  req_url req1 = req_url req2 ∧
  req_params req1 = req_params req2 ∧
  req_json req1 = req_json req2 ∧
  req_timeout req1 = req_timeout req2.
Proof.
  assert (∀ key, ∃ method endpoint p j,
            call (__init__ net key) op =
            _request (__init__ net key) method endpoint (Kwargs p j None None) ∧
            ∀ key', call (__init__ net key') op =
                    _request (__init__ net key') method endpoint (Kwargs p j None None))
    as Hshape.
  { intros key. destruct op; do 4 eexists; split; reflexivity. }
  destruct (Hshape key1) as (method & endpoint & p & j & H1 & Hany).
  rewrite H1, (Hany key2), !issued_request.
  intros ->%list_elem_of_singleton ->%list_elem_of_singleton.
  simpl. rewrite !(left_id_L ∅ (∪)), !delete_singleton_eq, !lookup_singleton_eq.
  repeat split; reflexivity.
Qed.

Lemma credential_only_in_header_witness :
  ∃ req1 req2,
    req1 ∈ issued (call (__init__ (mock_transport 200 (Json one_post)) "KEY")
                        (Search "lobster")) [] ∧
    req2 ∈ issued (call (__init__ (mock_transport 200 (Json one_post)) "OTHER")
                        (Search "lobster")) [] ∧
    req_headers req1 !! "Authorization" = Some "Bearer KEY" ∧
    req_headers req2 !! "Authorization" = Some "Bearer OTHER" ∧
    req_url req1 = req_url req2 ∧
    req_params req1 = req_params req2.
Proof.
  do 2 eexists.
  split; [ apply list_elem_of_singleton; reflexivity | ].
  split; [ apply list_elem_of_singleton; reflexivity | ].
  destruct (credential_only_in_header (mock_transport 200 (Json one_post))
              "KEY" "OTHER" (Search "lobster") [] []
              (build_request (client (__init__ (mock_transport 200 (Json one_post)) "KEY"))
                 "GET" "/search" (with_params {[ "q" := VStr "lobster" ]}))
              (build_request (client (__init__ (mock_transport 200 (Json one_post)) "OTHER"))
                 "GET" "/search" (with_params {[ "q" := VStr "lobster" ]})))
    as (H1 & H2 & _ & _ & Hurl & Hparams & _ & _);
    [ apply list_elem_of_singleton; reflexivity
    | apply list_elem_of_singleton; reflexivity | ].
  split; [ exact H1 | ].
  split; [ exact H2 | ].
  split; [ exact Hurl | exact Hparams ].
Defined.
End client_requests.

(** ** The commands *)
Section commands_run.
Import Config Api Cli.

Variable net : transport.
Variable format : value → string.
Variable renders : string → bool.

Implicit Types (p : process) (c : command) (m : dict).

Abbreviation get_client := (get_client net format renders).
Abbreviation handle_error := (handle_error format renders).
Abbreviation console_print := (console_print renders).
Abbreviation run := (run net format renders).
Abbreviation heartbeat := (heartbeat net format renders).
Abbreviation config_set := (config_set renders).

Lemma process_eta p : Process (os p) (sent p) (console p) = p.
Proof. destruct p; reflexivity. Qed.

Lemma in_os_get_api_key p :
  in_os get_api_key p = (completion (fst (get_api_key (os p))), p).
Proof.
  unfold in_os.
  destruct (readers_keep (os p) "") as (_ & _ & Hkeep).
  destruct (get_api_key (os p)) as [o w]; simpl in *; subst w.
  rewrite process_eta. reflexivity.
Qed.

Lemma get_client_run p :
  get_client p =
  match fst (get_api_key (os p)) with
  | Return api_key =>
      if truthy api_key
      then (Finished (__init__ net (format api_key)), p)
      else
        (console_print "[red]No API key configured.[/red]";;
         console_print "Set it with: [cyan]moltbook config set api_key YOUR_KEY[/cyan]";;
         console_print "Or: [cyan]export MOLTBOOK_API_KEY=YOUR_KEY[/cyan]";;
         sys_exit 1) p
  | Raise e => (Crashed (Python e), p)
  end.
Proof.
  unfold Cli.get_client, mbind at 1, Cmd_bind at 1.
  rewrite in_os_get_api_key.
  destruct (fst (get_api_key (os p))) as [api_key|e]; simpl; [ | reflexivity ].
  destruct (truthy api_key); reflexivity.
Qed.

Lemma console_print_run text p :
  console_print text p =
  if renders text
  then (Finished tt, Process (os p) (sent p) (console p ++ [Printed text]))
  else (Crashed MarkupError, p).
Proof. reflexivity. Qed.

Lemma get_client_from_env p s :
  environ (os p) !! "MOLTBOOK_API_KEY" = Some s →
  s ≠ "" →
  format (VStr s) = s →
  get_client p = (Finished (__init__ net s), p).
Proof.
  intros Henv Hs Hformat.
  rewrite get_client_run, (get_api_key_env (os p) s Henv Hs); simpl.
  destruct s; [ congruence | ]. simpl. rewrite Hformat. reflexivity.
Qed.

(** X18: With the variable set to a non-empty string, [get_client] builds the
    client with that credential and does nothing else: it prints nothing,
    sends nothing, and does not read the configuration file, so a file
    that is not JSON does not stop it. *)
Theorem get_client_env_key p s :
  environ (os p) !! "MOLTBOOK_API_KEY" = Some s →
  s ≠ "" →
  format (VStr s) = s →
  get_client p = (Finished (__init__ net s), p).
Proof. apply get_client_from_env. Qed.

(** X19: Without a usable key ([get_api_key] returns [None], the empty string
    or another false value) [get_client] returns no client, sends nothing
    and writes nothing; when the terminal takes its three lines, it prints
    them and leaves with exit code 1. *)
Theorem get_client_without_key p (v : value) :
  fst (get_api_key (os p)) = Return v →
  truthy v = false →
  (∀ client, fst (get_client p) ≠ Finished client) ∧
  sent (snd (get_client p)) = sent p ∧
  os (snd (get_client p)) = os p ∧
  (renders "[red]No API key configured.[/red]" = true →
   renders "Set it with: [cyan]moltbook config set api_key YOUR_KEY[/cyan]" = true →
   renders "Or: [cyan]export MOLTBOOK_API_KEY=YOUR_KEY[/cyan]" = true →
   get_client p =
   (Exited 1,
    Process (os p) (sent p)
      (console p ++
       [ Printed "[red]No API key configured.[/red]";
         Printed "Set it with: [cyan]moltbook config set api_key YOUR_KEY[/cyan]";
         Printed "Or: [cyan]export MOLTBOOK_API_KEY=YOUR_KEY[/cyan]" ]))).
Proof.
  intros Hkey Hv.
  rewrite get_client_run, Hkey, Hv.
  unfold mbind, Cmd_bind. rewrite !console_print_run.
  destruct (renders "[red]No API key configured.[/red]");
    [ | repeat split; intros; simpl; congruence ].
  simpl. rewrite !console_print_run.
  destruct (renders "Set it with: [cyan]moltbook config set api_key YOUR_KEY[/cyan]");
    [ | repeat split; intros; simpl; congruence ].
  simpl. rewrite !console_print_run.
  destruct (renders "Or: [cyan]export MOLTBOOK_API_KEY=YOUR_KEY[/cyan]");
    [ | repeat split; intros; simpl; congruence ].
  simpl. repeat split; intros; try congruence.
  rewrite <- !app_assoc. reflexivity.
Qed.

Lemma handle_error_quiet p m :
  m !! "success" = None ∨ (∃ v, m !! "success" = Some v ∧ truthy v = true) →
  handle_error (VDict m) p = (Finished tt, p).
Proof.
  intros Hsuccess.
  unfold Cli.handle_error, mbind, Cmd_bind, pure; simpl.
  destruct Hsuccess as [-> | (v & -> & Hv)]; simpl; [ reflexivity | ].
  rewrite Hv. reflexivity.
Qed.

(** X20: [handle_error] lets a response through without a word when it is a
    dictionary that has no [success] key, or one whose [success] is true
    in Python's sense. *)
Theorem handle_error_accepts p m :
  m !! "success" = None ∨ (∃ v, m !! "success" = Some v ∧ truthy v = true) →
  handle_error (VDict m) p = (Finished tt, p).
Proof. apply handle_error_quiet. Qed.

Lemma handle_error_run p m v :
  m !! "success" = Some v →
  truthy v = false →
  handle_error (VDict m) p =
  (console_print ("[red]Error:[/red] " +:+
                  format (default (VStr "Unknown error") (m !! "error")));;
   (if truthy (default (VStr "") (m !! "hint"))
    then console_print ("[dim]" +:+ format (default (VStr "") (m !! "hint")) +:+ "[/dim]")
    else mret tt);;
   sys_exit 1) p.
Proof.
  intros Hsuccess Hv.
  unfold Cli.handle_error, mbind at 1, Cmd_bind at 1, pure; simpl.
  rewrite Hsuccess; simpl. rewrite Hv. reflexivity.
Qed.

Lemma handle_error_stops p m v :
  m !! "success" = Some v →
  truthy v = false →
  fst (handle_error (VDict m) p) ≠ Finished tt.
Proof.
  intros Hsuccess Hv.
  rewrite (handle_error_run p m v Hsuccess Hv).
  unfold mbind, Cmd_bind. rewrite console_print_run.
  destruct (renders _); [ | simpl; discriminate ].
  destruct (truthy (default (VStr "") (m !! "hint"))); simpl; [ | discriminate ].
  rewrite console_print_run.
  destruct (renders _); simpl; discriminate.
Qed.

(** X21: A response whose [success] is present and false in Python's sense
    ([False], [None], [0], the empty string) is never let through:
    [handle_error] does not return.  When the terminal takes the texts, it
    prints the error (or [Unknown error]), then the hint if there is one,
    and leaves with exit code 1. *)
Theorem handle_error_rejects p m v :
  m !! "success" = Some v →
  truthy v = false →
  let error := default (VStr "Unknown error") (m !! "error") in
  let hint := default (VStr "") (m !! "hint") in
  fst (handle_error (VDict m) p) ≠ Finished tt ∧
  (renders ("[red]Error:[/red] " +:+ format error) = true →
   (truthy hint = true → renders ("[dim]" +:+ format hint +:+ "[/dim]") = true) →
   handle_error (VDict m) p =
   (Exited 1,
    Process (os p) (sent p)
      (console p ++
       Printed ("[red]Error:[/red] " +:+ format error) ::
       if truthy hint then [ Printed ("[dim]" +:+ format hint +:+ "[/dim]") ] else []))).
Proof.
  intros Hsuccess Hv error hint.
  rewrite (handle_error_run p m v Hsuccess Hv). fold error hint.
  unfold mbind, Cmd_bind. rewrite console_print_run.
  destruct (renders ("[red]Error:[/red] " +:+ format error));
    [ | split; [ simpl | intros ]; congruence ].
  destruct (truthy hint); simpl.
  - rewrite console_print_run.
    destruct (renders ("[dim]" +:+ format hint +:+ "[/dim]"));
      (split; [ simpl; congruence | intros _ Hhint; try (specialize (Hhint eq_refl); congruence) ]).
    simpl. rewrite <- app_assoc. reflexivity.
  - split; [ congruence | reflexivity ].
Qed.

(** X22: A response that is not a dictionary (a JSON list, string, number or
    [null]) makes [handle_error] die of [AttributeError] before it prints
    anything. *)
Theorem handle_error_not_a_dict p (response : value) :
  (∀ m, response ≠ VDict m) →
  handle_error response p = (Crashed (Python AttributeError), p).
Proof.
  intros Hresponse.
  destruct response as [| b | n | s | l | m]; try reflexivity.
  destruct (Hresponse m). reflexivity.
Qed.

(** Sending an operation from inside a command. *)
Lemma on_wire_request self method endpoint kw p :
  on_wire (_request self method endpoint kw) p =
  (completion
     match mounted (client self) (build_request (client self) method endpoint kw) with
     | Responded r => json_load (content r)
     | Failed => Raise TransportError
     end,
   Process (os p) (sent p ++ [build_request (client self) method endpoint kw])%list
           (console p)).
Proof.
  unfold on_wire.
  pose proof (_request_wire self method endpoint kw (sent p)) as Hwire.
  pose proof (_request_result self method endpoint kw (sent p)) as Hresult.
  destruct (_request self method endpoint kw (sent p)) as [o s]; simpl in *.
  subst o s. reflexivity.
Qed.

Lemma on_wire_call key op p :
  ∃ req,
    issues (call (__init__ net key) op) req ∧
    on_wire (call (__init__ net key) op) p =
    (completion match net req with
                | Responded r => json_load (content r)
                | Failed => Raise TransportError
                end,
     Process (os p) (sent p ++ [req])%list (console p)).
Proof.
  destruct (call_request (__init__ net key) op)
    as (method & endpoint & kw & -> & _ & _).
  eexists. split; [ apply _request_issues | ].
  apply on_wire_request.
Qed.

(** Each of these commands gets the client, calls its one operation, and
    either echoes the result or checks it and reports. *)
Lemma run_shape c (as_json : bool) :
  run c as_json =
  (client ← get_client;
   result ← on_wire (call client (operation_of c));
   if as_json then output_json result
   else handle_error result;; console_print (report_of c)).
Proof. destruct c as [ | | | | | | ? [|] ]; reflexivity. Qed.

Lemma run_answered c (as_json : bool) p key :
  get_client p = (Finished (__init__ net key), p) →
  ∃ req,
    issues (call (__init__ net key) (operation_of c)) req ∧
    ∀ code v,
      net req = Responded (HttpResponse code (Json v)) →
      run c as_json p =
      (if as_json then output_json v
       else handle_error v;; console_print (report_of c))
        (Process (os p) (sent p ++ [req])%list (console p)).
Proof.
  intros Hclient.
  destruct (on_wire_call key (operation_of c) p) as (req & Hreq & Hrun).
  exists req. split; [ exact Hreq | ].
  intros code v Hnet.
  rewrite run_shape. unfold mbind at 1 2, Cmd_bind at 1 2.
  rewrite Hclient, Hrun, Hnet. reflexivity.
Qed.

(** X23: With [--json] a command never leaves with an error code because the
    server said no: whatever the status code and whatever the envelope
    says, it sends its one request, echoes the body and finishes. *)
Theorem json_mode_echoes_and_finishes c p key :
  environ (os p) !! "MOLTBOOK_API_KEY" = Some key →
  key ≠ "" →
  format (VStr key) = key →
  ∃ req,
    issues (call (__init__ net key) (operation_of c)) req ∧
    ∀ code v,
      net req = Responded (HttpResponse code (Json v)) →
      run c true p =
      (Finished tt,
       Process (os p) (sent p ++ [req])%list (console p ++ [Echoed (Json v)])%list).
Proof.
  intros Henv Hkey Hformat.
  destruct (run_answered c true p key (get_client_from_env p key Henv Hkey Hformat))
    as (req & Hreq & Hrun).
  exists req. split; [ exact Hreq | ].
  intros code v Hnet. rewrite (Hrun code v Hnet). reflexivity.
Qed.

(** X24: Without [--json], a response that [handle_error] lets through is
    reported with the command's line, and the command finishes. *)
Theorem report_mode_reports c p key :
  environ (os p) !! "MOLTBOOK_API_KEY" = Some key →
  key ≠ "" →
  format (VStr key) = key →
  renders (report_of c) = true →
  ∃ req,
    issues (call (__init__ net key) (operation_of c)) req ∧
    ∀ code m,
      net req = Responded (HttpResponse code (Json (VDict m))) →
      m !! "success" = None ∨ (∃ v, m !! "success" = Some v ∧ truthy v = true) →
      run c false p =
      (Finished tt,
       Process (os p) (sent p ++ [req])%list
               (console p ++ [Printed (report_of c)])%list).
Proof.
  intros Henv Hkey Hformat Hreport.
  destruct (run_answered c false p key (get_client_from_env p key Henv Hkey Hformat))
    as (req & Hreq & Hrun).
  exists req. split; [ exact Hreq | ].
  intros code m Hnet Hsuccess. rewrite (Hrun code _ Hnet).
  unfold mbind, Cmd_bind.
  rewrite (handle_error_quiet _ m Hsuccess), console_print_run, Hreport.
  reflexivity.
Qed.

Lemma handle_error_keeps (response : value) p :
  os (snd (handle_error response p)) = os p ∧
  sent (snd (handle_error response p)) = sent p.
Proof.
  destruct response as [| b | n | s | l | m]; try (split; reflexivity).
  unfold Cli.handle_error, mbind, Cmd_bind, pure; simpl.
  destruct (negb (truthy (default (VBool true) (m !! "success"))));
    [ | split; reflexivity ].
  rewrite console_print_run.
  destruct (renders _); [ | split; reflexivity ].
  destruct (truthy (default (VStr "") (m !! "hint"))); simpl;
    [ | split; reflexivity ].
  rewrite console_print_run.
  destruct (renders _); split; reflexivity.
Qed.

(** X25: Without [--json], a response whose [success] is present and false is
    a failure of the command: the request has been sent, but the command
    does not finish and does not print its line. *)
Theorem report_mode_fails c p key :
  environ (os p) !! "MOLTBOOK_API_KEY" = Some key →
  key ≠ "" →
  format (VStr key) = key →
  ∃ req,
    issues (call (__init__ net key) (operation_of c)) req ∧
    ∀ code m v,
      net req = Responded (HttpResponse code (Json (VDict m))) →
      m !! "success" = Some v →
      truthy v = false →
      fst (run c false p) ≠ Finished tt ∧
      sent (snd (run c false p)) = (sent p ++ [req])%list ∧
      os (snd (run c false p)) = os p.
Proof.
  intros Henv Hkey Hformat.
  destruct (run_answered c false p key (get_client_from_env p key Henv Hkey Hformat))
    as (req & Hreq & Hrun).
  exists req. split; [ exact Hreq | ].
  intros code m v Hnet Hsuccess Hv. rewrite (Hrun code _ Hnet).
  set (p' := Process (os p) (sent p ++ [req])%list (console p)).
  pose proof (handle_error_stops p' m v Hsuccess Hv) as Hnot.
  destruct (handle_error_keeps (VDict m) p') as [Hos Hsent].
  unfold mbind, Cmd_bind.
  destruct (handle_error (VDict m) p') as [[[]|code'|f] p'']; simpl in *;
    [ congruence | | ]; (split; [ discriminate | split; assumption ]).
Qed.

(** X26: [heartbeat] asks for the status and then for the DM activity.  With
    [--json] and both answered, it echoes the two bodies in one object and
    finishes, whatever they say.  When the first request fails in the
    transport, the command dies there and the second request is not sent. *)
Theorem heartbeat_requests p key (as_json : bool) :
  environ (os p) !! "MOLTBOOK_API_KEY" = Some key →
  key ≠ "" →
  format (VStr key) = key →
  ∃ r1 r2,
    issues (status (__init__ net key)) r1 ∧
    issues (dm_check (__init__ net key)) r2 ∧
    (∀ code1 code2 s d,
       net r1 = Responded (HttpResponse code1 (Json s)) →
       net r2 = Responded (HttpResponse code2 (Json d)) →
       heartbeat true p =
       (Finished tt,
        Process (os p) (sent p ++ [r1; r2])%list
          (console p ++ [Echoed (Json (VDict {[ "status" := s; "dm" := d ]}))])%list)) ∧
    (net r1 = Failed →
     heartbeat as_json p =
     (Crashed (Python TransportError),
      Process (os p) (sent p ++ [r1])%list (console p))).
Proof.
  intros Henv Hkey Hformat.
  pose proof (get_client_from_env p key Henv Hkey Hformat) as Hclient.
  do 2 eexists.
  split; [ apply _request_issues | ].
  split; [ apply _request_issues | ].
  split.
  - intros code1 code2 s d Hnet1 Hnet2.
    unfold Cli.heartbeat, mbind at 1 2 3, Cmd_bind at 1 2 3.
    rewrite Hclient. unfold status, dm_check, get.
    rewrite on_wire_request. change (mounted (client (__init__ net key))) with net. rewrite Hnet1. simpl.
    rewrite on_wire_request. change (mounted (client (__init__ net key))) with net. rewrite Hnet2. simpl.
    rewrite <- app_assoc. reflexivity.
  - intros Hnet1.
    unfold Cli.heartbeat, mbind at 1 2, Cmd_bind at 1 2.
    rewrite Hclient. unfold status, get.
    rewrite on_wire_request. change (mounted (client (__init__ net key))) with net. rewrite Hnet1. reflexivity.
Qed.

(** X27: [heartbeat] and [handle_error] read a response without a [success]
    key in opposite ways: [handle_error] lets it through, and [heartbeat]
    reports the status as failed.  Either way [heartbeat] goes on to the
    DM line, ends with [HEARTBEAT_OK] and finishes. *)
Theorem heartbeat_missing_success p key :
  environ (os p) !! "MOLTBOOK_API_KEY" = Some key →
  key ≠ "" →
  format (VStr key) = key →
  renders "[dim]No DM activity[/dim]" = true →
  renders (String "010" "[green]HEARTBEAT_OK[/green]") = true →
  ∃ r1 r2,
    issues (status (__init__ net key)) r1 ∧
    issues (dm_check (__init__ net key)) r2 ∧
    ∀ code1 code2 m d,
      net r1 = Responded (HttpResponse code1 (Json (VDict m))) →
      net r2 = Responded (HttpResponse code2 (Json (VDict d))) →
      m !! "success" = None →
      truthy (default VNone (d !! "has_activity")) = false →
      let failed :=
        "[red]✗ Status: " +:+ format (default (VStr "unknown") (m !! "error")) +:+
        "[/red]" in
      renders failed = true →
      handle_error (VDict m) p = (Finished tt, p) ∧
      heartbeat false p =
      (Finished tt,
       Process (os p) (sent p ++ [r1; r2])%list
         (console p ++
          [ Printed failed;
            Printed "[dim]No DM activity[/dim]";
            Printed (String "010" "[green]HEARTBEAT_OK[/green]") ])%list).
Proof.
  intros Henv Hkey Hformat Hquiet Hok.
  pose proof (get_client_from_env p key Henv Hkey Hformat) as Hclient.
  do 2 eexists.
  split; [ apply _request_issues | ].
  split; [ apply _request_issues | ].
  intros code1 code2 m d Hnet1 Hnet2 Hsuccess Hactivity failed Hfailed.
  split; [ apply handle_error_quiet; left; exact Hsuccess | ].
  unfold Cli.heartbeat, mbind at 1 2 3, Cmd_bind at 1 2 3.
  rewrite Hclient. unfold status, dm_check, get.
  rewrite on_wire_request. change (mounted (client (__init__ net key))) with net.
  rewrite Hnet1. simpl completion. cbv iota beta.
  rewrite on_wire_request. change (mounted (client (__init__ net key))) with net.
  rewrite Hnet2. simpl completion. cbv iota beta.
  unfold mbind, Cmd_bind, pure, py_get, py_get_default, completion.
  rewrite Hsuccess, Hactivity.
  change (truthy (default VNone None)) with false.
  cbv beta iota. cbn [os sent console]. fold failed.
  rewrite (console_print_run failed), Hfailed. cbn [os sent console].
  rewrite console_print_run, Hquiet. cbn [os sent console].
  rewrite console_print_run, Hok. cbn [os sent console].
  rewrite <- !app_assoc. reflexivity.
Qed.

(** X28: [config set api_key K] stores the key the commands will use: with the
    variable absent or empty and a configuration that loads, the next
    [get_client] builds the client with [K], whether or not the terminal
    took the line that [config set] prints. *)
Theorem config_set_then_get_client p (prior : dict) (k : string) :
  fst (load_config (os p)) = Return (VDict prior) →
  environ (os p) !! "MOLTBOOK_API_KEY" = None ∨
  environ (os p) !! "MOLTBOOK_API_KEY" = Some "" →
  k ≠ "" →
  format (VStr k) = k →
  let p' := snd (config_set "api_key" k p) in
  get_client p' = (Finished (__init__ net k), p').
Proof.
  intros Hload Henv Hk Hformat p'.
  assert (os p' = World (environ (os p)) true
                    (Some (Json (VDict (<["api_key" := VStr k]> prior))))) as Hos.
  { unfold p', Cli.config_set, mbind, Cmd_bind, in_os.
    rewrite (set_config_value_run "api_key" k (os p) prior Hload). simpl.
    rewrite console_print_run. destruct (renders _); reflexivity. }
  rewrite get_client_run.
  rewrite (get_api_key_file (os p') (<["api_key" := VStr k]> prior)).
  - simpl. rewrite lookup_insert_eq. simpl.
    destruct k; [ congruence | ]. simpl. rewrite Hformat. reflexivity.
  - rewrite Hos. exact Henv.
  - rewrite Hos. reflexivity.
Qed.
End commands_run.

(** ** The properties on examples *)
Section examples.
Import Config Api Cli.

Lemma no_empty_body_is_sent_witness :
  ∃ req body,
    issues (call demo_client (Api.DmReject "c1" true)) req ∧
    req_json req = Some body ∧
    body ≠ ∅.
Proof.
  destruct (no_empty_body_is_sent demo_client (Api.DmReject "c1" true))
    as (req & Hreq & Hbody).
  pose proof (issues_unique _ _ _ Hreq (_request_issues _ _ _ _)) as Heq.
  exists req, {[ "block" := VBool true ]}.
  split; [ exact Hreq | ].
  assert (req_json req = Some {[ "block" := VBool true ]}) as Hjson
    by (rewrite Heq; reflexivity).
  split; [ exact Hjson | ].
  apply Hbody. exact Hjson.
Defined.

Lemma transport_fault_is_not_retried_witness :
  ∃ req,
    fst (call (__init__ (λ _, Failed) "KEY") Status []) = Raise TransportError ∧
    issued (call (__init__ (λ _, Failed) "KEY") Status) [] = [ req ].
Proof.
  eexists.
  apply (transport_fault_is_not_retried (λ _, Failed) "KEY" Status []).
  - apply list_elem_of_singleton. reflexivity.
  - reflexivity.
Defined.

Lemma get_client_env_key_witness :
  get_client serving format_str plain (start env_and_file) =
  (Finished (__init__ serving "ENVKEY"), start env_and_file).
Proof.
  apply (get_client_env_key serving format_str plain (start env_and_file) "ENVKEY").
  - reflexivity.
  - discriminate.
  - reflexivity.
Defined.

Lemma get_client_without_key_witness :
  get_client serving format_str plain (start fresh) =
  (Exited 1,
   Process fresh []
     [ Printed "[red]No API key configured.[/red]";
       Printed "Set it with: [cyan]moltbook config set api_key YOUR_KEY[/cyan]";
       Printed "Or: [cyan]export MOLTBOOK_API_KEY=YOUR_KEY[/cyan]" ]).
Proof.
  destruct (get_client_without_key serving format_str plain (start fresh) VNone)
    as (_ & _ & _ & Hrun); [ reflexivity | reflexivity | ].
  apply Hrun; reflexivity.
Defined.

Lemma handle_error_accepts_witness :
  handle_error format_str plain one_post (start fresh) = (Finished tt, start fresh).
Proof.
  apply (handle_error_accepts format_str plain (start fresh)).
  left. reflexivity.
Defined.

Lemma handle_error_rejects_witness :
  handle_error format_str plain invalid_token (start fresh) =
  (Exited 1,
   Process fresh []
     [ Printed "[red]Error:[/red] invalid_token"; Printed "[dim]check key[/dim]" ]).
Proof.
  destruct (handle_error_rejects format_str plain (start fresh)
              {[ "success" := VBool false; "error" := VStr "invalid_token";
                 "hint" := VStr "check key" ]} (VBool false))
    as [_ Hrun]; [ reflexivity | reflexivity | ].
  apply Hrun; reflexivity.
Defined.

Lemma handle_error_not_a_dict_witness :
  handle_error format_str plain (VList []) (start fresh) =
  (Crashed (Python AttributeError), start fresh).
Proof.
  apply (handle_error_not_a_dict format_str plain (start fresh) (VList [])).
  intros m. discriminate.
Defined.

Lemma json_mode_echoes_and_finishes_witness :
  ∃ req,
    run refusing format_str plain (Upvote "p1") true (start env_and_file) =
    (Finished tt, Process env_and_file [req] [Echoed (Json invalid_token)]).
Proof.
  destruct (json_mode_echoes_and_finishes refusing format_str plain (Upvote "p1")
              (start env_and_file) "ENVKEY")
    as (req & _ & Hrun); [ reflexivity | discriminate | reflexivity | ].
  exists req. apply (Hrun 401). reflexivity.
Defined.

Lemma report_mode_reports_witness :
  ∃ req,
    run serving format_str plain (Upvote "p1") false (start env_and_file) =
    (Finished tt,
     Process env_and_file [req] [Printed "[green]✓ Upvoted![/green]"]).
Proof.
  destruct (report_mode_reports serving format_str plain (Upvote "p1")
              (start env_and_file) "ENVKEY")
    as (req & _ & Hrun);
    [ reflexivity | discriminate | reflexivity | reflexivity | ].
  exists req.
  apply (Hrun 200 {[ "posts" := VList [ VDict {[ "id" := VStr "abc" ]} ] ]}).
  - reflexivity.
  - left. reflexivity.
Defined.

Lemma report_mode_fails_witness :
  fst (run refusing format_str plain (Upvote "p1") false (start env_and_file)) ≠
  Finished tt.
Proof.
  destruct (report_mode_fails refusing format_str plain (Upvote "p1")
              (start env_and_file) "ENVKEY")
    as (req & _ & Hrun); [ reflexivity | discriminate | reflexivity | ].
  apply (Hrun 401 {[ "success" := VBool false; "error" := VStr "invalid_token";
                     "hint" := VStr "check key" ]} (VBool false));
    reflexivity.
Defined.

Lemma heartbeat_requests_witness :
  ∃ r1 r2,
    heartbeat serving format_str plain true (start env_and_file) =
    (Finished tt,
     Process env_and_file [r1; r2]
       [ Echoed (Json (VDict {[ "status" := one_post; "dm" := one_post ]})) ]).
Proof.
  destruct (heartbeat_requests serving format_str plain (start env_and_file)
              "ENVKEY" true)
    as (r1 & r2 & _ & _ & Hrun & _); [ reflexivity | discriminate | reflexivity | ].
  exists r1, r2. apply (Hrun 200 200); reflexivity.
Defined.

Lemma heartbeat_missing_success_witness :
  ∃ r1 r2,
    heartbeat serving format_str plain false (start env_and_file) =
    (Finished tt,
     Process env_and_file [r1; r2]
       [ Printed "[red]✗ Status: unknown[/red]";
         Printed "[dim]No DM activity[/dim]";
         Printed (String "010" "[green]HEARTBEAT_OK[/green]") ]).
Proof.
  destruct (heartbeat_missing_success serving format_str plain (start env_and_file)
              "ENVKEY")
    as (r1 & r2 & _ & _ & Hrun);
    [ reflexivity | discriminate | reflexivity | reflexivity | reflexivity | ].
  exists r1, r2.
  destruct (Hrun 200 200 {[ "posts" := VList [ VDict {[ "id" := VStr "abc" ]} ] ]}
                 {[ "posts" := VList [ VDict {[ "id" := VStr "abc" ]} ] ]})
    as [_ Hbeat]; [ reflexivity | reflexivity | reflexivity | reflexivity | reflexivity | ].
  exact Hbeat.
Defined.

Lemma config_set_then_get_client_witness :
  get_client serving format_str plain
    (snd (config_set plain "api_key" "NEWKEY" (start fresh))) =
  (Finished (__init__ serving "NEWKEY"),
   snd (config_set plain "api_key" "NEWKEY" (start fresh))).
Proof.
  apply (config_set_then_get_client serving format_str plain (start fresh) ∅ "NEWKEY").
  - reflexivity.
  - left. reflexivity.
  - discriminate.
  - reflexivity.
Defined.
End examples.
